(** * SQL fragment generators of the football statistics pipeline

    A shallow embedding of [includes/positions_columns.js] and
    [includes/generate_coalesce.js], with the statements of their
    specification proved against it.

    JavaScript strings are [string]; arrays of strings are [list string];
    a call that may throw returns an [Outcome]. *)

From Stdlib Require Import List String Ascii Bool Lia.
Import ListNotations.
Open Scope string_scope.

(** ** A small JavaScript runtime *)

Module Js.

Inductive Error : Type :=
| TypeError           (* e.g. "columns.map is not a function" *)
| SchemaUnavailable.  (* the schema read was rejected *)

Inductive Outcome (A : Type) : Type :=
| Returned (a : A)
| Thrown (e : Error).
Arguments Returned {A} a.
Arguments Thrown {A} e.

Definition bind {A B} (m : Outcome A) (k : A -> Outcome B) : Outcome B :=
  match m with
  | Returned a => k a
  | Thrown e => Thrown e
  end.

(** The line feed written [\n] in a JavaScript literal. *)
Definition LF : string := String (ascii_of_nat 10) EmptyString.

(** [Array.prototype.map] on an array without holes. *)
Definition Array_map {A B} (callback : A -> B) (O : list A) : list B :=
  List.map callback O.

(** [Array.prototype.join]: the loop of the language definition.  [R] is
    the text built so far and [k] the index of the next element; the
    separator is appended before every element but the first. *)
Fixpoint join_loop (sep : string) (k : nat) (R : string) (O : list string)
  : string :=
  match O with
  | [] => R
  | element :: rest =>
      let R := if Nat.eqb k 0 then R else R ++ sep in
      join_loop sep (S k) (R ++ element) rest
  end.

Definition Array_join (O : list string) (sep : string) : string :=
  join_loop sep 0 "" O.

(** What [join] has still to append once the first element is out: the
    rest of the array, each element after a separator. *)
Definition remainder (sep : string) (O : list string) : string :=
  match O with
  | [] => ""
  | _ :: _ => sep ++ String.concat sep O
  end.

(** The values a property read on [positionColumns] can produce. *)
Inductive Value : Type :=
| Undefined
| Arr (elements : list string)
| Fun (name : string)       (* a built-in function object *)
| ObjectPrototypeRef.       (* the object [Object.prototype] itself *)

(** [ToBoolean]: every object (array, function, plain object) is truthy,
    also the empty array. *)
Definition truthy (v : Value) : bool :=
  match v with
  | Undefined => false
  | Arr _ | Fun _ | ObjectPrototypeRef => true
  end.

(** [a || b] *)
Definition or_else (a b : Value) : Value := if truthy a then a else b.

(** Own-property lookup in an object literal, first match in source order
    (the literals here have no repeated key). *)
Fixpoint own {V} (props : list (string * V)) (key : string) : option V :=
  match props with
  | [] => None
  | (k, v) :: rest => if String.eqb k key then Some v else own rest key
  end.

(** The properties every object literal inherits from [Object.prototype].
    Reading [__proto__] runs its getter, which yields the prototype. *)
Definition Object_prototype : list (string * Value) :=
  [ ("constructor", Fun "Object");
    ("__defineGetter__", Fun "__defineGetter__");
    ("__defineSetter__", Fun "__defineSetter__");
    ("hasOwnProperty", Fun "hasOwnProperty");
    ("__lookupGetter__", Fun "__lookupGetter__");
    ("__lookupSetter__", Fun "__lookupSetter__");
    ("isPrototypeOf", Fun "isPrototypeOf");
    ("propertyIsEnumerable", Fun "propertyIsEnumerable");
    ("toString", Fun "toString");
    ("valueOf", Fun "valueOf");
    ("__proto__", ObjectPrototypeRef);
    ("toLocaleString", Fun "toLocaleString") ].

(** [obj[key]] for an object literal [obj] whose own properties are arrays:
    the own property if there is one, else the inherited one, else
    [undefined]. *)
Definition get (props : list (string * list string)) (key : string) : Value :=
  match own props key with
  | Some elements => Arr elements
  | None =>
      match own Object_prototype key with
      | Some v => v
      | None => Undefined
      end
  end.

(** [v.map(callback)] where [v] is any value: only arrays have [map]. *)
Definition call_map (v : Value) (callback : string -> string)
  : Outcome (list string) :=
  match v with
  | Arr elements => Returned (Array_map callback elements)
  | Undefined | Fun _ | ObjectPrototypeRef => Thrown TypeError
  end.

End Js.

Import Js.

Notation "x <- m ;; k" := (Js.bind m (fun x => k))
  (at level 61, m at next level, right associativity).

(** ** [includes/positions_columns.js] *)

Module PositionsColumns.

(** The object literal [positionColumns], own properties in source order. *)
Definition positionColumns : list (string * list string) :=
  [ ("Goalkeeper",
      [ "shot_stopping_saves";
        "shot_stopping_sota";
        "shot_stopping_psxg";
        "shot_stopping_ga";
        "crosses_stp";
        "crosses_opp";
        "sweeper_#opa";
        "sweeper_avgdist";
        "total_cmp%";
        "goal_kicks_launch%";
        "minutes" ]);
    ("Centerback",
      [ "aerial_duels_won%";
        "clr_";
        "int_";
        "blocks_blocks";
        "tackles_tkl";
        "tackles_tklw";
        "minutes" ]);
    ("Fullback",
      [ "crosses_crs";
        "tackles_tkl";
        "tackles_tklw";
        "tackles_def_3rd";
        "tackles_mid_3rd";
        "tackles_att_3rd";
        "int_";
        "minutes" ]);
    ("Midfielder",
      [ "total_cmp%";
        "tackles_tkl";
        "int_";
        "tackles_mid_3rd";
        "xag_";
        "1_3_";
        "minutes" ]);
    ("Winger",
      [ "crosses_crs";
        "xag_";
        "xa_";
        "performance_og";
        "performance_recov";
        "minutes" ]);
    ("Striker",
      [ "performance_pkwon";
        "performance_pkcon";
        "aerial_duels_won%";
        "aerial_duels_won";
        "challenges_att_3rd";
        "ppa_";
        "minutes" ]) ].

(** The keys of the catalog: [Object.keys(positionColumns)]. *)
Definition keys : list string := List.map fst positionColumns.

(** [return positionColumns[position] || [];] *)
Definition getColumnsForPosition (position : string) : Value :=
  or_else (get positionColumns position) (Arr []).

(** [const columns = getColumnsForPosition(position);
    return columns.map(col => `${col}`).join(', ');] *)
Definition generatePositionSelect (position : string) : Outcome string :=
  let columns := getColumnsForPosition position in
  mapped <- call_map columns (fun col => "" ++ col) ;;
  Returned (Array_join mapped ", ").

End PositionsColumns.

(** ** [includes/generate_coalesce.js] *)

Module GenerateCoalesce.

(** A result row of the schema read; the code reads [column.column_name]. *)
Record Row : Type := { column_name : string }.

(** The query text handed to [retrieve], by its clauses:
    [SELECT column_name FROM `<from_view>`
     WHERE table_name = '<where_table_name>'
     AND column_name NOT IN (<where_column_name_not_in>)]. *)
Record ColumnsQuery : Type :=
  { from_view : string;
    where_table_name : string;
    where_column_name_not_in : list string }.

(** The argument object [{ query: ... }] of [retrieve]. *)
Record RetrieveArgs : Type := { query : ColumnsQuery }.

Section Generator.

(** The two globals of the pipeline runtime the function calls. *)
Variable ref : string -> string.
Variable retrieve : RetrieveArgs -> Outcome (list Row).

Definition columns_query : ColumnsQuery :=
  {| from_view := ref "new_stats_rows" ++ ".INFORMATION_SCHEMA.COLUMNS";
     where_table_name := "new_stats_rows";
     where_column_name_not_in := ["player_"; "source_file"] |}.

(** [columns.map(column =>
      `COALESCE(${tables.map(table =>
          `${table}.${column.column_name}`).join(', ')}) AS ${column.column_name}`)] *)
Definition coalesceStatements (tables : list string) (columns : list Row)
  : list string :=
  Array_map
    (fun column =>
       "COALESCE("
       ++ Array_join
            (Array_map (fun table => table ++ "." ++ column_name column)
                       tables)
            ", "
       ++ ") AS " ++ column_name column)
    columns.

Definition generateCoalesceColumns (tables : list string) : Outcome string :=
  columns <- retrieve {| query := columns_query |} ;;
  Returned (Array_join (coalesceStatements tables columns) ("," ++ LF)).

End Generator.

(** *** The schema introspector *)

(** A row of the warehouse's [INFORMATION_SCHEMA.COLUMNS] view. *)
Record ViewRow : Type :=
  { view_table_name : string;
    view_column_name : string }.

(** The warehouse's metadata: the rows of the view of that name, in the
    order the warehouse lists them, or [None] when it cannot be resolved. *)
Definition Warehouse : Type := string -> option (list ViewRow).

Definition selected (q : ColumnsQuery) (r : ViewRow) : bool :=
  String.eqb (view_table_name r) (where_table_name q)
  && negb (existsb (String.eqb (view_column_name r))
                   (where_column_name_not_in q)).

(** Modelled from the spec: [retrieve], the schema introspector adapter, is
    a global of the pipeline runtime and not part of the sources.  It
    issues the metadata query against the warehouse's information schema,
    filtered to the named table and excluding the given column names, and
    yields one [{column_name}] row per remaining column; it signals
    Schema-Unavailable when the view cannot be resolved. *)
Definition retrieve (w : Warehouse) (args : RetrieveArgs)
  : Outcome (list Row) :=
  let q := query args in
  match w (from_view q) with
  | None => Thrown SchemaUnavailable
  | Some rows =>
      Returned (List.map (fun r => {| column_name := view_column_name r |})
                         (List.filter (selected q) rows))
  end.

(** *** The specification's vocabulary *)

(** The exclusion set. *)
Definition ExclusionSet : list string := ["player_"; "source_file"].

Definition excluded (c : string) : bool := existsb (String.eqb c) ExclusionSet.

(** The columns of the reference table [new_stats_rows]. *)
Definition reference_columns (rows : list ViewRow) : list string :=
  List.map view_column_name
    (List.filter (fun r => String.eqb (view_table_name r) "new_stats_rows")
                 rows).

(** The columns left for merging: those of the reference table outside the
    exclusion set, in the warehouse's order. *)
Definition mergeable_columns (rows : list ViewRow) : list string :=
  List.filter (fun c => negb (excluded c)) (reference_columns rows).

(** [t.c], a column qualified by a table. *)
Definition qualified (c t : string) : string := t ++ "." ++ c.

(** [COALESCE(t1.c, t2.c, ..., tn.c) AS c], the tables in the order of
    [tables]. *)
Definition coalesce_expression (tables : list string) (c : string) : string :=
  "COALESCE(" ++ String.concat ", " (List.map (qualified c) tables)
              ++ ") AS " ++ c.

(** The view the query reads, as [ref] resolves the reference table. *)
Definition reference_view (ref : string -> string) : string :=
  ref "new_stats_rows" ++ ".INFORMATION_SCHEMA.COLUMNS".

End GenerateCoalesce.

(** ** Sample inputs *)

Module Samples.
Import GenerateCoalesce.

Definition sample_ref (name : string) : string := "stats." ++ name.

Definition sample_rows : list ViewRow :=
  [ {| view_table_name := "new_stats_rows"; view_column_name := "player_" |};
    {| view_table_name := "new_stats_rows"; view_column_name := "minutes" |};
    {| view_table_name := "other_rows"; view_column_name := "season" |};
    {| view_table_name := "new_stats_rows"; view_column_name := "source_file" |};
    {| view_table_name := "new_stats_rows"; view_column_name := "xag_" |} ].

Definition sample_warehouse : Warehouse :=
  fun view =>
    if String.eqb view "stats.new_stats_rows.INFORMATION_SCHEMA.COLUMNS"
    then Some sample_rows else None.

(** A reference table that has only the two excluded columns. *)
Definition bare_warehouse : Warehouse :=
  fun _ => Some
    [ {| view_table_name := "new_stats_rows"; view_column_name := "player_" |};
      {| view_table_name := "new_stats_rows"; view_column_name := "source_file" |} ].

Definition sample_tables : list string := ["A"; "B"; "C"].

(** The sample warehouse without the rows of other tables. *)
Definition trimmed_warehouse : Warehouse :=
  fun view =>
    if String.eqb view "stats.new_stats_rows.INFORMATION_SCHEMA.COLUMNS"
    then Some
      [ {| view_table_name := "new_stats_rows"; view_column_name := "player_" |};
        {| view_table_name := "new_stats_rows"; view_column_name := "minutes" |};
        {| view_table_name := "new_stats_rows"; view_column_name := "source_file" |};
        {| view_table_name := "new_stats_rows"; view_column_name := "xag_" |} ]
    else None.

(** Schema reads that answer with fixed columns. *)
Definition read_minutes (_ : RetrieveArgs) : Outcome (list Row) :=
  Returned [ {| column_name := "minutes" |} ].

Definition read_xag (_ : RetrieveArgs) : Outcome (list Row) :=
  Returned [ {| column_name := "xag_" |} ].

Definition read_minutes_xag (_ : RetrieveArgs) : Outcome (list Row) :=
  Returned [ {| column_name := "minutes" |}; {| column_name := "xag_" |} ].

End Samples.

(** ** Vocabulary of the further properties *)

Module Vocabulary.

(** The property names an object literal inherits. *)
Definition inherited_names : list string := List.map fst Object_prototype.



(** The arguments of a [COALESCE] call as the code joins them. *)
Definition coalesce_arguments (tables : list string) (c : string) : string :=
  Array_join (Array_map (fun table => table ++ "." ++ c) tables) ", ".

End Vocabulary.


(** * Properties *)

(** ** Facts about the runtime *)

Module JsFacts.

Lemma append_empty_r (s : string) : s ++ "" = s.
Proof. induction s as [|a s IH]; simpl; [reflexivity | now rewrite IH]. Qed.

Lemma append_assoc (s t u : string) : (s ++ t) ++ u = s ++ (t ++ u).
Proof. induction s as [|a s IH]; simpl; [reflexivity | now rewrite IH]. Qed.

Lemma concat_cons (sep e : string) (rest : list string) :
  String.concat sep (e :: rest) = e ++ remainder sep rest.
Proof.
  destruct rest as [|e' rest]; simpl.
  - now rewrite append_empty_r.
  - reflexivity.
Qed.

Lemma join_loop_later (sep : string) (O : list string) :
  forall k R, join_loop sep (S k) R O = R ++ remainder sep O.
Proof.
  induction O as [|e rest IH]; intros k R.
  - simpl. now rewrite append_empty_r.
  - cbn [join_loop Nat.eqb]. rewrite IH.
    cbn [remainder]. rewrite concat_cons.
    now rewrite !append_assoc.
Qed.

(** The loop of [join] computes the separated concatenation. *)
Lemma Array_join_concat (O : list string) (sep : string) :
  Array_join O sep = String.concat sep O.
Proof.
  destruct O as [|e rest]; [reflexivity|].
  unfold Array_join. cbn [join_loop Nat.eqb].
  rewrite join_loop_later, concat_cons. reflexivity.
Qed.

Lemma Array_map_id (O : list string) : Array_map (fun col => "" ++ col) O = O.
Proof.
  unfold Array_map. induction O as [|e rest IH]; [reflexivity|].
  cbn [List.map]. now rewrite IH.
Qed.

Lemma own_In {V} (props : list (string * V)) (key : string) (v : V) :
  own props key = Some v -> In (key, v) props.
Proof.
  induction props as [|[k w] rest IH]; simpl; [discriminate|].
  destruct (String.eqb_spec k key) as [->|_].
  - intros [= ->]. now left.
  - intros H. right. auto.
Qed.

Lemma own_None {V} (props : list (string * V)) (key : string) :
  own props key = None -> ~ In key (List.map fst props).
Proof.
  induction props as [|[k w] rest IH]; simpl; [tauto|].
  destruct (String.eqb_spec k key) as [->|Hne]; [discriminate|].
  intros H [Heq|Hin]; [contradiction | now apply IH].
Qed.

Lemma own_not_None {V} (props : list (string * V)) (key : string) :
  In key (List.map fst props) -> own props key <> None.
Proof. intros Hin Hnone. exact (own_None props key Hnone Hin). Qed.

(** Nothing inherited from [Object.prototype] is an array, and all of it
    is truthy. *)
Lemma Object_prototype_no_array (key : string) (v : Value) :
  own Object_prototype key = Some v ->
  truthy v = true /\ forall elements, v <> Arr elements.
Proof.
  intros H. apply own_In in H. simpl in H.
  repeat (destruct H as [[= <- <-]|H]; [split; [reflexivity | discriminate]|]).
  contradiction.
Qed.

End JsFacts.

(** ** The position catalog and the position fragment *)

Module PositionsColumnsSpec.
Import PositionsColumns JsFacts.

(** The six category labels. *)
Lemma keys_six :
  keys = ["Goalkeeper"; "Centerback"; "Fullback"; "Midfielder"; "Winger";
          "Striker"].
Proof. reflexivity. Qed.

(** A label with its own entry in the catalog gets that entry. *)
Lemma getColumnsForPosition_entry (label : string) (cols : list string) :
  In (label, cols) positionColumns -> getColumnsForPosition label = Arr cols.
Proof.
  intros H. simpl in H.
  repeat (destruct H as [[= <- <-]|H]; [reflexivity|]).
  contradiction.
Qed.

(** Every array the lookup returns is an entry of the catalog or the empty
    array of the fallback. *)
Lemma getColumnsForPosition_Arr (label : string) (cols : list string) :
  getColumnsForPosition label = Arr cols ->
  In (label, cols) positionColumns \/ cols = [].
Proof.
  unfold getColumnsForPosition, or_else, get.
  destruct (own positionColumns label) as [elements|] eqn:Hown.
  - cbn [truthy]. intros [= <-]. left. now apply own_In.
  - destruct (own Object_prototype label) as [v|] eqn:Hproto.
    + destruct (Object_prototype_no_array label v Hproto) as [-> Hno].
      intros ->. now destruct (Hno cols).
    + cbn [truthy]. intros [= <-]. now right.
Qed.

(** A label that is no key of the catalog and no property name of
    [Object.prototype] gets the empty array. *)
Lemma getColumnsForPosition_fallback (label : string) :
  own positionColumns label = None ->
  own Object_prototype label = None ->
  getColumnsForPosition label = Arr [].
Proof.
  intros Hown Hproto.
  unfold getColumnsForPosition, or_else, get. now rewrite Hown, Hproto.
Qed.

(** The lookup never yields [undefined]. *)
Lemma getColumnsForPosition_defined (label : string) :
  getColumnsForPosition label <> Undefined.
Proof.
  unfold getColumnsForPosition, or_else.
  destruct (get positionColumns label); simpl; discriminate.
Qed.

(** The fragment is the [join] of whatever the lookup returns: text when
    that is an array, the [TypeError] of a missing [map] method otherwise. *)
Lemma generatePositionSelect_cases (label : string) :
  generatePositionSelect label =
  match getColumnsForPosition label with
  | Arr cols => Returned (String.concat ", " cols)
  | Undefined | Fun _ | ObjectPrototypeRef => Thrown TypeError
  end.
Proof.
  unfold generatePositionSelect.
  destruct (getColumnsForPosition label) as [|cols|name|]; try reflexivity.
  cbn [call_map Js.bind]. now rewrite Array_map_id, Array_join_concat.
Qed.

Example getColumnsForPosition_Unknown : getColumnsForPosition "Unknown" = Arr [].
Proof. reflexivity. Qed.

Example generatePositionSelect_Unknown :
  generatePositionSelect "Unknown" = Returned "".
Proof. reflexivity. Qed.

(** C3 (as the code has it): for the label ["toString"] the lookup returns
    no sequence but the inherited function, and [generatePositionSelect]
    returns no text at all, joined or empty: it throws a [TypeError]. *)
Theorem generatePositionSelect_inherited_property :
  ~ In "toString" keys
  /\ getColumnsForPosition "toString" = Fun "toString"
  /\ generatePositionSelect "toString" = Thrown TypeError
  /\ forall text, generatePositionSelect "toString" <> Returned text.
Proof.
  split.
  - apply own_None with (props := positionColumns). reflexivity.
  - repeat split; try reflexivity. intros text. discriminate.
Qed.

(** C4: [getColumnsForPosition("Goalkeeper")] is exactly the eleven columns
    of the goalkeeper entry, in the order of the catalog. *)
Theorem getColumnsForPosition_Goalkeeper :
  getColumnsForPosition "Goalkeeper" =
  Arr [ "shot_stopping_saves"; "shot_stopping_sota"; "shot_stopping_psxg";
        "shot_stopping_ga"; "crosses_stp"; "crosses_opp"; "sweeper_#opa";
        "sweeper_avgdist"; "total_cmp%"; "goal_kicks_launch%"; "minutes" ].
Proof. reflexivity. Qed.

(** C5 (as the code has it): the label ["constructor"] is no key of the
    catalog, yet [getColumnsForPosition] returns for it the inherited
    [Object] function instead of an empty sequence, and
    [generatePositionSelect] then throws. *)
Theorem getColumnsForPosition_inherited_property :
  ~ In "constructor" keys
  /\ getColumnsForPosition "constructor" = Fun "Object"
  /\ getColumnsForPosition "constructor" <> Arr []
  /\ generatePositionSelect "constructor" = Thrown TypeError.
Proof.
  split.
  - apply own_None with (props := positionColumns). reflexivity.
  - repeat split; try reflexivity. discriminate.
Qed.

(** C7: [generatePositionSelect("Centerback")] is the seven columns of the
    centre-back entry separated by [", "]. *)
Theorem generatePositionSelect_Centerback :
  generatePositionSelect "Centerback" =
  Returned
    "aerial_duels_won%, clr_, int_, blocks_blocks, tackles_tkl, tackles_tklw, minutes".
Proof. reflexivity. Qed.

(** C9: for every key of the catalog, [getColumnsForPosition] returns a
    non-empty sequence that contains [minutes] and at least one column
    other than [minutes]. *)
Theorem getColumnsForPosition_known (label : string) :
  In label keys ->
  exists cols,
    getColumnsForPosition label = Arr cols
    /\ cols <> []
    /\ In "minutes" cols
    /\ exists c, In c cols /\ c <> "minutes".
Proof.
  intros H. simpl in H.
  repeat (destruct H as [<-|H];
          [eexists; split; [reflexivity|];
           split; [discriminate|];
           split; [simpl; tauto|];
           eexists; split; [left; reflexivity | discriminate]|]).
  contradiction.
Qed.

Lemma getColumnsForPosition_known_witness :
  exists cols,
    getColumnsForPosition "Winger" = Arr cols
    /\ cols <> []
    /\ In "minutes" cols
    /\ exists c, In c cols /\ c <> "minutes".
Proof.
  apply (getColumnsForPosition_known "Winger").
  simpl. tauto.
Defined.

Ltac distinct_columns :=
  repeat (constructor; [simpl; intuition discriminate|]); constructor.

Ltac ends_with_minutes :=
  match goal with
  | |- exists front, getColumnsForPosition ?known = _ /\ _ =>
      let v := eval cbv in (getColumnsForPosition known) in
      match v with
      | Arr ?cols => exists (removelast cols)
      end
  end;
  split; [reflexivity | cbn [removelast app]; distinct_columns].

(** C10: [getColumnsForPosition] returns a non-empty sequence exactly for
    the six labels Goalkeeper, Centerback, Fullback, Midfielder, Winger and
    Striker, and for each of the six the sequence ends with [minutes] and
    repeats no column. *)
Theorem catalog_six_labels (label : string) :
  ((exists cols, getColumnsForPosition label = Arr cols /\ cols <> [])
   <-> In label ["Goalkeeper"; "Centerback"; "Fullback"; "Midfielder";
                 "Winger"; "Striker"])
  /\ Forall
       (fun known =>
          exists front,
            getColumnsForPosition known = Arr (front ++ ["minutes"])
            /\ NoDup (front ++ ["minutes"]))
       ["Goalkeeper"; "Centerback"; "Fullback"; "Midfielder"; "Winger";
        "Striker"].
Proof.
  split; [split|].
  - intros [cols [Hcols Hne]].
    destruct (getColumnsForPosition_Arr label cols Hcols) as [Hin|Hnil];
      [|contradiction].
    change (In (fst (label, cols)) (List.map fst positionColumns)).
    now apply in_map.
  - intros H. simpl in H.
    repeat (destruct H as [<-|H];
            [eexists; split; [reflexivity | discriminate]|]).
    contradiction.
  - repeat (constructor; [ends_with_minutes|]). constructor.
Qed.

End PositionsColumnsSpec.

(** ** The coalesce fragment *)

Module GenerateCoalesceSpec.
Import GenerateCoalesce JsFacts Samples.

Section Generator.

Variable ref : string -> string.
Variable retrieve : RetrieveArgs -> Outcome (list Row).

(** Each statement the code builds is the expression of the specification
    for that column. *)
Lemma coalesceStatements_expressions (tables : list string) (columns : list Row) :
  coalesceStatements tables columns
  = List.map (coalesce_expression tables) (List.map column_name columns).
Proof.
  unfold coalesceStatements, Array_map. rewrite map_map.
  apply map_ext. intros column.
  unfold coalesce_expression, qualified. now rewrite Array_join_concat.
Qed.

(** When the schema read succeeds, the generator returns the expressions of
    the returned columns, separated by a comma and a line feed. *)
Lemma generateCoalesceColumns_returned (tables : list string) (columns : list Row) :
  retrieve {| query := columns_query ref |} = Returned columns ->
  generateCoalesceColumns ref retrieve tables
  = Returned (String.concat ("," ++ LF)
                (List.map (coalesce_expression tables)
                          (List.map column_name columns))).
Proof.
  intros Hread. unfold generateCoalesceColumns. rewrite Hread.
  cbn [Js.bind]. now rewrite Array_join_concat, coalesceStatements_expressions.
Qed.

(** A failed schema read is passed on unchanged, whatever the tables. *)
Lemma generateCoalesceColumns_thrown (tables : list string) (e : Error) :
  retrieve {| query := columns_query ref |} = Thrown e ->
  generateCoalesceColumns ref retrieve tables = Thrown e.
Proof. intros Hread. unfold generateCoalesceColumns. now rewrite Hread. Qed.

End Generator.

(** The arguments of one expression follow the tables one to one. *)
Lemma qualified_order (tables : list string) (c : string) (k : nat) :
  nth_error (List.map (qualified c) tables) k
  = option_map (fun t => t ++ "." ++ c) (nth_error tables k).
Proof. apply nth_error_map. Qed.

Example coalesce_expression_ABC :
  coalesce_expression ["A"; "B"; "C"] "xag_"
  = "COALESCE(A.xag_, B.xag_, C.xag_) AS xag_".
Proof. reflexivity. Qed.

(** C1: for a non-empty list of tables and the columns the schema read
    returns, the generator emits for each column [c] the expression
    [COALESCE(t1.c, ..., tn.c) AS c], the tables in the order of the input,
    and joins the expressions with a comma followed by a line feed. *)
Theorem generateCoalesceColumns_expressions
  (ref : string -> string) (retrieve : RetrieveArgs -> Outcome (list Row))
  (tables : list string) (columns : list Row) :
  tables <> [] ->
  retrieve {| query := columns_query ref |} = Returned columns ->
  generateCoalesceColumns ref retrieve tables
  = Returned
      (String.concat ("," ++ LF)
         (List.map
            (fun c =>
               "COALESCE("
               ++ String.concat ", " (List.map (fun t => t ++ "." ++ c) tables)
               ++ ") AS " ++ c)
            (List.map column_name columns))).
Proof.
  intros _ Hread. now apply generateCoalesceColumns_returned.
Qed.

Lemma generateCoalesceColumns_expressions_witness :
  generateCoalesceColumns sample_ref (GenerateCoalesce.retrieve sample_warehouse)
                          sample_tables
  = Returned ("COALESCE(A.minutes, B.minutes, C.minutes) AS minutes," ++ LF
              ++ "COALESCE(A.xag_, B.xag_, C.xag_) AS xag_").
Proof.
  apply (generateCoalesceColumns_expressions
           sample_ref (GenerateCoalesce.retrieve sample_warehouse) sample_tables
           [ {| column_name := "minutes" |}; {| column_name := "xag_" |} ]).
  - discriminate.
  - reflexivity.
Defined.

(** The introspector's answer, column by column: the reference table's
    columns without the excluded ones, in the warehouse's order. *)
Lemma retrieve_columns (ref : string -> string) (w : Warehouse)
  (rows : list ViewRow) :
  w (reference_view ref) = Some rows ->
  exists columns,
    GenerateCoalesce.retrieve w {| query := columns_query ref |} = Returned columns
    /\ List.map column_name columns = mergeable_columns rows.
Proof.
  intros Hview. unfold GenerateCoalesce.retrieve.
  cbn [query columns_query from_view]. fold (reference_view ref).
  rewrite Hview. eexists. split; [reflexivity|].
  rewrite map_map. cbn [column_name].
  unfold mergeable_columns, reference_columns.
  induction rows as [|r rows IH] in |- *; [reflexivity|].
  cbn [List.filter]. unfold selected at 1.
  cbn [columns_query where_table_name where_column_name_not_in].
  destruct (String.eqb (view_table_name r) "new_stats_rows");
    cbn [andb List.map List.filter]; [|exact IH].
  unfold excluded, ExclusionSet.
  destruct (existsb (String.eqb (view_column_name r)) ["player_"; "source_file"]);
    cbn [negb List.map]; [exact IH | now rewrite IH].
Qed.

Lemma mergeable_columns_In (rows : list ViewRow) (c : string) :
  In c (mergeable_columns rows)
  <-> In c (reference_columns rows) /\ ~ In c ExclusionSet.
Proof.
  unfold mergeable_columns. rewrite filter_In, negb_true_iff.
  apply and_iff_compat_l. unfold excluded.
  rewrite <- not_true_iff_false, existsb_exists.
  split.
  - intros Hno Hin. apply Hno. exists c. split; [exact Hin | apply String.eqb_refl].
  - intros Hno [x [Hin Heq]]. apply String.eqb_eq in Heq. now subst x.
Qed.

(** C2: the columns of the generator's output are exactly the columns of
    the reference table that are not in the exclusion set: none of
    [player_] and [source_file] is emitted, no other column is left out and
    none is added. *)
Theorem generateCoalesceColumns_column_set
  (ref : string -> string) (w : Warehouse) (rows : list ViewRow)
  (tables : list string) :
  w (reference_view ref) = Some rows ->
  exists emitted,
    generateCoalesceColumns ref (GenerateCoalesce.retrieve w) tables
    = Returned (String.concat ("," ++ LF)
                  (List.map (coalesce_expression tables) emitted))
    /\ emitted = mergeable_columns rows
    /\ (forall c, In c emitted
                  <-> In c (reference_columns rows) /\ ~ In c ExclusionSet)
    /\ ~ In "player_" emitted
    /\ ~ In "source_file" emitted.
Proof.
  intros Hview.
  destruct (retrieve_columns ref w rows Hview) as [columns [Hread Hcols]].
  exists (mergeable_columns rows).
  split; [|split; [reflexivity|split; [apply mergeable_columns_In|]]].
  - rewrite (generateCoalesceColumns_returned ref _ tables columns Hread).
    now rewrite Hcols.
  - split; intros Hin; apply mergeable_columns_In in Hin;
      destruct Hin as [_ Hout]; apply Hout; simpl; tauto.
Qed.

Lemma generateCoalesceColumns_column_set_witness :
  exists emitted,
    generateCoalesceColumns sample_ref (GenerateCoalesce.retrieve sample_warehouse)
                            sample_tables
    = Returned (String.concat ("," ++ LF)
                  (List.map (coalesce_expression sample_tables) emitted))
    /\ emitted = mergeable_columns sample_rows
    /\ (forall c, In c emitted
                  <-> In c (reference_columns sample_rows) /\ ~ In c ExclusionSet)
    /\ ~ In "player_" emitted
    /\ ~ In "source_file" emitted.
Proof.
  apply (generateCoalesceColumns_column_set sample_ref sample_warehouse
           sample_rows sample_tables).
  reflexivity.
Defined.

Example mergeable_columns_sample :
  mergeable_columns sample_rows = ["minutes"; "xag_"].
Proof. reflexivity. Qed.

(** C6: when the schema read returns no column, the generator returns the
    empty text, whatever the tables. *)
Theorem generateCoalesceColumns_no_columns
  (ref : string -> string) (retrieve : RetrieveArgs -> Outcome (list Row))
  (tables : list string) :
  retrieve {| query := columns_query ref |} = Returned [] ->
  generateCoalesceColumns ref retrieve tables = Returned "".
Proof.
  intros Hread.
  now rewrite (generateCoalesceColumns_returned ref retrieve tables [] Hread).
Qed.

Lemma generateCoalesceColumns_no_columns_witness :
  generateCoalesceColumns sample_ref (GenerateCoalesce.retrieve bare_warehouse)
                          sample_tables
  = Returned "".
Proof.
  apply (generateCoalesceColumns_no_columns
           sample_ref (GenerateCoalesce.retrieve bare_warehouse) sample_tables).
  reflexivity.
Defined.

(** C8: with no table the generator neither fails nor guards: for every
    column [c] the schema read returns it emits [COALESCE() AS c]. *)
Theorem generateCoalesceColumns_no_tables
  (ref : string -> string) (retrieve : RetrieveArgs -> Outcome (list Row))
  (columns : list Row) :
  retrieve {| query := columns_query ref |} = Returned columns ->
  generateCoalesceColumns ref retrieve []
  = Returned (String.concat ("," ++ LF)
                (List.map (fun c => "COALESCE() AS " ++ c)
                          (List.map column_name columns))).
Proof.
  intros Hread.
  now rewrite (generateCoalesceColumns_returned ref retrieve [] columns Hread).
Qed.

Lemma generateCoalesceColumns_no_tables_witness :
  generateCoalesceColumns sample_ref (GenerateCoalesce.retrieve sample_warehouse) []
  = Returned ("COALESCE() AS minutes," ++ LF ++ "COALESCE() AS xag_").
Proof.
  apply (generateCoalesceColumns_no_tables
           sample_ref (GenerateCoalesce.retrieve sample_warehouse)
           [ {| column_name := "minutes" |}; {| column_name := "xag_" |} ]).
  reflexivity.
Defined.

End GenerateCoalesceSpec.

(** * Further properties of the code *)

(** ** The lookup and the fragment over all labels *)

Module PositionsColumnsMore.
Import PositionsColumns JsFacts Vocabulary PositionsColumnsSpec.

Lemma own_Some_In {V} (props : list (string * V)) (key : string) (v : V) :
  own props key = Some v -> In key (List.map fst props).
Proof.
  intros H. apply own_In in H.
  change key with (fst (key, v)). now apply in_map.
Qed.

Lemma own_absent {V} (props : list (string * V)) (key : string) :
  ~ In key (List.map fst props) -> own props key = None.
Proof.
  intros Hno. destruct (own props key) as [v|] eqn:H; [|reflexivity].
  destruct Hno. exact (own_Some_In props key v H).
Qed.

(** No entry of the catalog is an empty array. *)
Lemma entries_nonempty (label : string) (cols : list string) :
  In (label, cols) positionColumns -> cols <> [].
Proof.
  intros H. simpl in H.
  repeat (destruct H as [[= <- <-]|H]; [discriminate|]).
  contradiction.
Qed.

(** Every label falls in one of three classes: a key of the catalog, an
    inherited property name, or neither. *)
Lemma getColumnsForPosition_classes (label : string) :
  (exists cols, In (label, cols) positionColumns
                /\ getColumnsForPosition label = Arr cols)
  \/ (In label inherited_names /\ ~ In label keys
      /\ getColumnsForPosition label <> Undefined
      /\ forall cols, getColumnsForPosition label <> Arr cols)
  \/ (~ In label inherited_names /\ ~ In label keys
      /\ getColumnsForPosition label = Arr []).
Proof.
  unfold getColumnsForPosition, or_else, get.
  destruct (own positionColumns label) as [elements|] eqn:Hown.
  - left. exists elements. split; [now apply own_In | reflexivity].
  - right. apply own_None in Hown.
    destruct (own Object_prototype label) as [v|] eqn:Hproto.
    + left. destruct (Object_prototype_no_array label v Hproto) as [Ht Hno].
      rewrite Ht.
      repeat split; try assumption.
      * exact (own_Some_In _ _ _ Hproto).
      * intros ->. discriminate.
    + right. apply own_None in Hproto. now repeat split.
Qed.

(** X1: the empty sequence is returned exactly for the labels that are
    neither a key of the catalog nor a property name inherited from
    [Object.prototype]. *)
Theorem getColumnsForPosition_empty_iff (label : string) :
  getColumnsForPosition label = Arr []
  <-> ~ In label keys /\ ~ In label inherited_names.
Proof.
  split.
  - intros Hres.
    destruct (getColumnsForPosition_classes label)
      as [[cols [Hin Hcols]]|[[_ [_ [_ Hno]]]|[Hni [Hnk _]]]].
    + rewrite Hcols in Hres. injection Hres as ->.
      now destruct (entries_nonempty label [] Hin).
    + now destruct (Hno []).
    + now split.
  - intros [Hnk Hni].
    apply getColumnsForPosition_fallback; now apply own_absent.
Qed.

(** X2: [generatePositionSelect] throws exactly for the twelve property
    names inherited from [Object.prototype], and what it throws is a
    [TypeError]; for every other label it returns a text. *)
Theorem generatePositionSelect_throws_iff (label : string) (e : Error) :
  generatePositionSelect label = Thrown e
  <-> e = TypeError /\ In label inherited_names.
Proof.
  rewrite generatePositionSelect_cases. split.
  - intros Hres.
    destruct (getColumnsForPosition_classes label)
      as [[cols [_ Hcols]]|[[Hin _]|[_ [_ Hcols]]]].
    + rewrite Hcols in Hres. discriminate.
    + split; [|exact Hin].
      destruct (getColumnsForPosition label); congruence.
    + rewrite Hcols in Hres. discriminate.
  - intros [-> Hin]. cbv [inherited_names Object_prototype List.map fst] in Hin.
    simpl in Hin.
    repeat (destruct Hin as [<-|Hin]; [reflexivity|]).
    contradiction.
Qed.

Lemma concat_entries_nonempty (label : string) (cols : list string) :
  In (label, cols) positionColumns -> String.concat ", " cols <> "".
Proof.
  intros H. simpl in H.
  repeat (destruct H as [[= <- <-]|H]; [discriminate|]).
  contradiction.
Qed.

(** X3: [generatePositionSelect] returns the empty text exactly for the
    labels that are neither a key of the catalog nor an inherited property
    name: an empty fragment always means an unknown label. *)
Theorem generatePositionSelect_empty_iff (label : string) :
  generatePositionSelect label = Returned ""
  <-> ~ In label keys /\ ~ In label inherited_names.
Proof.
  rewrite generatePositionSelect_cases. split.
  - intros Hres.
    destruct (getColumnsForPosition_classes label)
      as [[cols [Hin Hcols]]|[[_ [_ [Hdef Hno]]]|[Hni [Hnk _]]]].
    + rewrite Hcols in Hres. injection Hres as Hres.
      now destruct (concat_entries_nonempty label cols Hin).
    + destruct (getColumnsForPosition label) as [|cols| |]; try discriminate.
      now destruct (Hno cols).
    + now split.
  - intros [Hnk Hni].
    rewrite (getColumnsForPosition_fallback label); [reflexivity| |];
      now apply own_absent.
Qed.

(** X4: the non-empty sequences the lookup returns are exactly the entries
    of the catalog, each under its own key: the match on the label is exact
    (case and spelling), and nothing else yields columns. *)
Theorem getColumnsForPosition_entry_iff (label : string) (cols : list string) :
  In (label, cols) positionColumns
  <-> getColumnsForPosition label = Arr cols /\ cols <> [].
Proof.
  split.
  - intros Hin. split.
    + now apply getColumnsForPosition_entry.
    + exact (entries_nonempty label cols Hin).
  - intros [Hres Hne].
    destruct (getColumnsForPosition_Arr label cols Hres) as [Hin|Hnil];
      [exact Hin | contradiction].
Qed.

(** X5: a key of the catalog never collides with an inherited property
    name, so for every key the fragment is returned, never thrown, and is
    the non-empty text of the entry's columns separated by [", "]. *)
Theorem generatePositionSelect_entry (label : string) (cols : list string) :
  In (label, cols) positionColumns ->
  ~ In label inherited_names
  /\ generatePositionSelect label = Returned (String.concat ", " cols)
  /\ String.concat ", " cols <> "".
Proof.
  intros Hin. split; [|split].
  - simpl in Hin.
    repeat (destruct Hin as [[= <- <-]|Hin];
            [apply own_None with (props := Object_prototype); reflexivity|]).
    contradiction.
  - rewrite generatePositionSelect_cases.
    now rewrite (getColumnsForPosition_entry label cols Hin).
  - exact (concat_entries_nonempty label cols Hin).
Qed.

Lemma generatePositionSelect_entry_witness :
  ~ In "Winger" inherited_names
  /\ generatePositionSelect "Winger"
     = Returned "crosses_crs, xag_, xa_, performance_og, performance_recov, minutes"
  /\ "crosses_crs, xag_, xa_, performance_og, performance_recov, minutes" <> "".
Proof.
  apply (generatePositionSelect_entry "Winger"
           ["crosses_crs"; "xag_"; "xa_"; "performance_og"; "performance_recov";
            "minutes"]).
  simpl. tauto.
Defined.







(** X7: [minutes] is the one column shared by all positions: a column
    belongs to the sequence of every key exactly when it is [minutes]. *)
Theorem minutes_only_shared (column : string) :
  (forall label cols, In (label, cols) positionColumns -> In column cols)
  <-> column = "minutes".
Proof.
  split.
  - intros Hall.
    assert (Hgk := Hall "Goalkeeper" _ (or_introl eq_refl)).
    assert (Hwi := Hall "Winger" _
                     (or_intror (or_intror (or_intror (or_intror
                        (or_introl eq_refl)))))).
    simpl in Hgk.
    repeat (destruct Hgk as [<-|Hgk];
            [try reflexivity; simpl in Hwi; exfalso;
             repeat (destruct Hwi as [Hwi|Hwi]; [discriminate|]);
             exact Hwi|]).
    contradiction.
  - intros -> label cols Hin. simpl in Hin.
    repeat (destruct Hin as [[= <- <-]|Hin]; [simpl; tauto|]).
    contradiction.
Qed.

(** X12: for every label that is not one of the inherited property names,
    [getColumnsForPosition] returns a sequence and [generatePositionSelect]
    returns that sequence joined with [", "]: the entry's columns for a key,
    the empty text for any other label. *)
Theorem generatePositionSelect_joins_lookup (label : string) :
  ~ In label inherited_names ->
  exists cols,
    getColumnsForPosition label = Arr cols
    /\ generatePositionSelect label = Returned (String.concat ", " cols)
    /\ (In label keys -> In (label, cols) positionColumns)
    /\ (~ In label keys -> cols = []).
Proof.
  intros Hni. rewrite generatePositionSelect_cases.
  destruct (getColumnsForPosition_classes label)
    as [[cols [Hin Hcols]]|[[Hinh _]|[_ [Hnk Hcols]]]].
  - exists cols. rewrite Hcols.
    split; [reflexivity|]. split; [reflexivity|].
    split; [intros _; exact Hin|].
    intros Hnk. exfalso. apply Hnk. unfold keys.
    change label with (fst (label, cols)). now apply in_map.
  - contradiction.
  - exists []. rewrite Hcols.
    split; [reflexivity|]. split; [reflexivity|].
    split; [intros Hk; contradiction | reflexivity].
Qed.

Lemma generatePositionSelect_joins_lookup_witness :
  exists cols,
    getColumnsForPosition "Fullback" = Arr cols
    /\ generatePositionSelect "Fullback" = Returned (String.concat ", " cols)
    /\ (In "Fullback" keys -> In ("Fullback", cols) positionColumns)
    /\ (~ In "Fullback" keys -> cols = []).
Proof.
  apply (generatePositionSelect_joins_lookup "Fullback").
  apply own_None with (props := Object_prototype). reflexivity.
Defined.

End PositionsColumnsMore.

(** ** The coalesce fragment: failures, edges and composition *)

Module GenerateCoalesceMore.
Import GenerateCoalesce JsFacts Samples Vocabulary GenerateCoalesceSpec.

(** Joining two non-empty arrays one after the other puts one separator
    between the two joined texts. *)
Lemma concat_app (sep : string) (front back : list string) :
  front <> [] -> back <> [] ->
  String.concat sep (front ++ back)
  = String.concat sep front ++ sep ++ String.concat sep back.
Proof.
  intros Hfront Hback.
  induction front as [|e rest IH]; [contradiction|].
  rewrite <- app_comm_cons, !concat_cons.
  destruct rest as [|e' rest].
  - destruct back as [|b back]; [contradiction|].
    cbn [app remainder]. now rewrite append_empty_r.
  - change (remainder sep ((e' :: rest) ++ back)%list)
      with (sep ++ String.concat sep ((e' :: rest) ++ back)%list).
    rewrite IH by discriminate.
    cbn [remainder]. now rewrite !append_assoc.
Qed.

(** X9: the fragment follows the schema read row by row: when a read
    returns the rows of two non-empty reads one after the other, the
    fragment is the two fragments with one [",\n"] between them; rows are
    neither reordered nor merged, a column listed twice is emitted twice. *)
Theorem generateCoalesceColumns_append
  (ref : string -> string)
  (read_front read_back read_both : RetrieveArgs -> Outcome (list Row))
  (tables : list string) (front back : list Row) :
  front <> [] -> back <> [] ->
  read_front {| query := columns_query ref |} = Returned front ->
  read_back {| query := columns_query ref |} = Returned back ->
  read_both {| query := columns_query ref |} = Returned (front ++ back)%list ->
  exists text_front text_back,
    generateCoalesceColumns ref read_front tables = Returned text_front
    /\ generateCoalesceColumns ref read_back tables = Returned text_back
    /\ generateCoalesceColumns ref read_both tables
       = Returned (text_front ++ "," ++ LF ++ text_back).
Proof.
  intros Hf Hb Hrf Hrb Hrboth.
  rewrite (generateCoalesceColumns_returned ref _ tables front Hrf).
  rewrite (generateCoalesceColumns_returned ref _ tables back Hrb).
  rewrite (generateCoalesceColumns_returned ref _ tables _ Hrboth).
  do 2 eexists. split; [reflexivity|]. split; [reflexivity|].
  rewrite !map_app, concat_app.
  - now rewrite !append_assoc.
  - destruct front; [contradiction | discriminate].
  - destruct back; [contradiction | discriminate].
Qed.

Lemma generateCoalesceColumns_append_witness :
  exists text_front text_back,
    generateCoalesceColumns sample_ref read_minutes sample_tables
    = Returned text_front
    /\ generateCoalesceColumns sample_ref read_xag sample_tables
       = Returned text_back
    /\ generateCoalesceColumns sample_ref read_minutes_xag sample_tables
       = Returned (text_front ++ "," ++ LF ++ text_back).
Proof.
  apply (generateCoalesceColumns_append
           sample_ref read_minutes read_xag read_minutes_xag sample_tables
           [ {| column_name := "minutes" |} ] [ {| column_name := "xag_" |} ]).
  - discriminate.
  - discriminate.
  - reflexivity.
  - reflexivity.
  - reflexivity.
Defined.

(** X10: precedence composes: for two non-empty lists of tables given one
    after the other, every statement lists the arguments of the first list,
    then [", "], then the arguments of the second list. *)
Theorem coalesceStatements_append
  (first second : list string) (columns : list Row) :
  first <> [] -> second <> [] ->
  coalesceStatements (first ++ second)%list columns
  = List.map
      (fun column =>
         "COALESCE(" ++ coalesce_arguments first (column_name column)
         ++ ", " ++ coalesce_arguments second (column_name column)
         ++ ") AS " ++ column_name column)
      columns.
Proof.
  intros Hfirst Hsecond.
  unfold coalesceStatements, coalesce_arguments, Array_map.
  apply map_ext. intros column.
  rewrite !Array_join_concat, map_app, concat_app.
  - now rewrite !append_assoc.
  - destruct first; [contradiction | discriminate].
  - destruct second; [contradiction | discriminate].
Qed.

Lemma coalesceStatements_append_witness :
  coalesceStatements (["A"] ++ ["B"; "C"])%list [ {| column_name := "xag_" |} ]
  = [ "COALESCE(A.xag_, B.xag_, C.xag_) AS xag_" ].
Proof.
  apply (coalesceStatements_append ["A"] ["B"; "C"]
           [ {| column_name := "xag_" |} ]).
  - discriminate.
  - discriminate.
Defined.

(** X11: with the schema read evaluating the query of the source on the
    warehouse's view, the fragment depends only on the view's rows for the
    table [new_stats_rows]: two views with the same rows for that table
    give the same fragment, whatever they list for other tables. *)
Theorem generateCoalesceColumns_other_tables
  (ref : string -> string) (w w' : Warehouse) (rows rows' : list ViewRow)
  (tables : list string) :
  w (reference_view ref) = Some rows ->
  w' (reference_view ref) = Some rows' ->
  List.filter (fun r => String.eqb (view_table_name r) "new_stats_rows") rows
  = List.filter (fun r => String.eqb (view_table_name r) "new_stats_rows") rows' ->
  generateCoalesceColumns ref (GenerateCoalesce.retrieve w) tables
  = generateCoalesceColumns ref (GenerateCoalesce.retrieve w') tables.
Proof.
  intros Hw Hw' Hsame.
  destruct (retrieve_columns ref w rows Hw) as [columns [Hread Hcols]].
  destruct (retrieve_columns ref w' rows' Hw') as [columns' [Hread' Hcols']].
  rewrite (generateCoalesceColumns_returned ref _ tables columns Hread).
  rewrite (generateCoalesceColumns_returned ref _ tables columns' Hread').
  rewrite Hcols, Hcols'.
  unfold mergeable_columns, reference_columns. now rewrite Hsame.
Qed.

Lemma generateCoalesceColumns_other_tables_witness :
  generateCoalesceColumns sample_ref (GenerateCoalesce.retrieve sample_warehouse)
                          sample_tables
  = generateCoalesceColumns sample_ref (GenerateCoalesce.retrieve trimmed_warehouse)
                            sample_tables.
Proof.
  apply (generateCoalesceColumns_other_tables
           sample_ref sample_warehouse trimmed_warehouse sample_rows
           [ {| view_table_name := "new_stats_rows"; view_column_name := "player_" |};
             {| view_table_name := "new_stats_rows"; view_column_name := "minutes" |};
             {| view_table_name := "new_stats_rows"; view_column_name := "source_file" |};
             {| view_table_name := "new_stats_rows"; view_column_name := "xag_" |} ]).
  - reflexivity.
  - reflexivity.
  - reflexivity.
Defined.

End GenerateCoalesceMore.
